(** * The zbuild example C project: [examples/c_project/src/main.c]

    A shallow embedding of [main] and of the part of the C library it
    uses ([printf] with the directives [%d] and [%s]), followed by the
    properties of its standard output and of its exit status. *)

From Stdlib Require Import ZArith List String Ascii Bool Lia.
From Stdlib Require Import DecimalString.
From Stdlib Require DecimalPos DecimalZ.
Import ListNotations.

Local Open Scope string_scope.
Local Open Scope Z_scope.

(** ** Outcomes of a run

    A run of the model ends normally, stops because the loop budget it
    was given is used up, or performs an operation whose behaviour C
    leaves undefined. *)

Inductive outcome (A : Type) : Type :=
| Done (a : A)
| OutOfFuel
| Undefined.

Arguments Done {A} a.
Arguments OutOfFuel {A}.
Arguments Undefined {A}.

(** ** Standard output

    The stream is kept as the sequence of texts written to it, one
    entry per [printf] call, oldest first.  The bytes that reach the
    terminal are their concatenation, [stdout_text]. *)

Definition stdout : Type := list string.

Definition stdout_text (out : stdout) : string :=
  String.concat "" out.

(** ** A state and error monad over the output stream *)

Definition M (A : Type) : Type := stdout -> outcome (A * stdout).

Definition ret {A : Type} (a : A) : M A :=
  fun out => Done (a, out).

Definition bind {A B : Type} (m : M A) (k : A -> M B) : M B :=
  fun out =>
    match m out with
    | Done (a, out') => k a out'
    | OutOfFuel => OutOfFuel
    | Undefined => Undefined
    end.

Definition undefined {A : Type} : M A := fun _ => Undefined.
Definition out_of_fuel {A : Type} : M A := fun _ => OutOfFuel.

Declare Scope prog_scope.
Delimit Scope prog_scope with prog.
Notation "x <- m ;; k" := (bind m (fun x => k))
  (at level 61, m at next level, right associativity) : prog_scope.
Notation "m ;; k" := (bind m (fun _ => k))
  (at level 61, right associativity) : prog_scope.
Local Open Scope prog_scope.

(** ** C string literals

    Rocq strings have no escape sequences; [c_lit] performs the one
    translation the literals of [main.c] need, backslash-n to the line
    feed character. *)

Definition LF : ascii := ascii_of_nat 10.
Definition nl : string := String LF EmptyString.

Fixpoint c_lit (s : string) : string :=
  match s with
  | EmptyString => EmptyString
  | String "\" (String "n" rest) => String LF (c_lit rest)
  | String c rest => String c (c_lit rest)
  end.

(** ** The type [int] *)

Definition INT_MAX : Z := 2147483647.
Definition INT_MIN : Z := -2147483648.

(** [i++] on an [int]: signed overflow is undefined behaviour. *)
Definition int_incr (i : Z) : M Z :=
  if i <? INT_MAX then ret (i + 1) else undefined.

(** ** [printf]

    [fmt_d] is the conversion [%d]: an optional minus sign and the
    decimal digits, no leading zeros. *)

Definition fmt_d (z : Z) : string :=
  NilZero.string_of_int (Z.to_int z).

(** An argument of [printf]: an [int], or a C string, given by its
    characters up to the terminating zero. *)
Inductive farg : Type :=
| FInt (z : Z)
| FStr (s : string).

(** Expansion of a format against its arguments.  A directive whose
    argument is missing or of the other type is undefined behaviour
    ([None]); so is a directive other than [%d] and [%s], none of which
    occurs in [main.c]. *)
Fixpoint format (fmt : string) (args : list farg) : option string :=
  match fmt with
  | EmptyString => Some EmptyString
  | String "%" (String "d" rest) =>
      match args with
      | FInt z :: args' => option_map (append (fmt_d z)) (format rest args')
      | _ => None
      end
  | String "%" (String "s" rest) =>
      match args with
      | FStr s :: args' => option_map (append s) (format rest args')
      | _ => None
      end
  | String "%" _ => None
  | String c rest => option_map (String c) (format rest args)
  end.

(** [printf(fmt, args...)], with [fmt] given as the C literal.  The
    returned character count is dropped, as every call site does. *)
Definition printf (fmt : string) (args : list farg) : M unit :=
  fun out =>
    match format (c_lit fmt) args with
    | Some s => Done (tt, (out ++ [s])%list)
    | None => Undefined
    end.

(** [argv[i]]: reading outside the vector is undefined behaviour. *)
Definition argv_at (argv : list string) (i : Z) : M string :=
  if i <? 0 then undefined
  else match nth_error argv (Z.to_nat i) with
       | Some a => ret a
       | None => undefined
       end.

(** ** [main]

    [main.c] includes [utils.h] for [get_version] and [calculate] and
    does not define them: [main] is parameterised by both. *)

Section Main.

(** The result of [get_version()].  The function is declared in
    [utils.h]; the specification describes it as returning a textual
    version identifier, with no side effect and no failure. *)
Variable get_version : string.

(** [calculate], declared in [utils.h] as well: two [int]s to an
    [int], with no side effect.  Nothing is assumed about the value. *)
Variable calculate : Z -> Z -> Z.

(** [for (int i = 1; i < argc; i++) printf("  [%d]: %s\n", i, argv[i]);]
    started at [i].  Each execution of the body costs one unit of
    [fuel]; the test alone costs nothing. *)
Fixpoint for_loop (fuel : nat) (argc : Z) (argv : list string) (i : Z)
  : M unit :=
  if i <? argc then
    match fuel with
    | O => out_of_fuel
    | S fuel' =>
        a <- argv_at argv i ;;
        printf "  [%d]: %s\n" [FInt i; FStr a] ;;
        i' <- int_incr i ;;
        for_loop fuel' argc argv i'
    end
  else ret tt.

Definition main (fuel : nat) (argc : Z) (argv : list string) : M Z :=
  printf "zbuild Example Project\n" [] ;;
  printf "Version: %s\n" [FStr get_version] ;;
  (if argc >? 1 then
     printf "Arguments:\n" [] ;;
     for_loop fuel argc argv 1
   else ret tt) ;;
  let result := calculate 10 20 in
  printf "10 + 20 = %d\n" [FInt result] ;;
  ret 0.

(** A whole run: the stream is empty when [main] is entered. *)
Definition run (fuel : nat) (argc : Z) (argv : list string)
  : outcome (Z * stdout) :=
  main fuel argc argv [].

End Main.

(** ** The invocation

    The hosting environment enters [main] with [argc] the number of
    entries of [argv], itself an [int].  Entry 0 names the program; the
    invocation parameters are the entries after it. *)

Definition wf_invocation (argc : Z) (argv : list string) : Prop :=
  argc = Z.of_nat (List.length argv) /\ argc <= INT_MAX.

Definition params (argv : list string) : list string := tl argv.

(** ** The output the specification describes

    One definition per kind of line, each ending with the line feed,
    and the layout of section 6 of the specification. *)

Definition banner_line : string := "zbuild Example Project" ++ nl.
Definition version_line (v : string) : string := "Version: " ++ v ++ nl.
Definition header_line : string := "Arguments:" ++ nl.
Definition arg_line (i : Z) (v : string) : string :=
  "  [" ++ fmt_d i ++ "]: " ++ v ++ nl.
Definition sum_line (r : Z) : string := "10 + 20 = " ++ fmt_d r ++ nl.

(** The lines of the parameters [ps], numbered from [i] on. *)
Fixpoint arg_lines (i : Z) (ps : list string) : list string :=
  match ps with
  | [] => []
  | p :: ps' => arg_line i p :: arg_lines (i + 1) ps'
  end.

Definition arguments_section (ps : list string) : list string :=
  match ps with
  | [] => []
  | _ :: _ => header_line :: arg_lines 1 ps
  end.

Definition spec_stdout (v : string) (r : Z) (ps : list string) : stdout :=
  ([banner_line; version_line v] ++ arguments_section ps ++ [sum_line r])%list.

(** ** Text and lines

    What a reader of the stream sees: the text cut at every line feed.
    A final stretch without line feed counts as a line as well. *)

Fixpoint text_lines (s : string) : list string :=
  match s with
  | EmptyString => []
  | String c rest =>
      if Ascii.eqb c LF then EmptyString :: text_lines rest
      else match text_lines rest with
           | [] => [String c EmptyString]
           | l :: ls => String c l :: ls
           end
  end.

(** [no_lf s]: the line feed does not occur in [s]. *)
Fixpoint no_lf (s : string) : bool :=
  match s with
  | EmptyString => true
  | String c rest => negb (Ascii.eqb c LF) && no_lf rest
  end.

(** The layout of the specification as lines of text, the line feeds
    taken off. *)
Fixpoint arg_texts (i : Z) (ps : list string) : list string :=
  match ps with
  | [] => []
  | p :: ps' => ("  [" ++ fmt_d i ++ "]: " ++ p) :: arg_texts (i + 1) ps'
  end.

Definition spec_text_lines (v : string) (r : Z) (ps : list string)
  : list string :=
  (["zbuild Example Project"; ("Version: " ++ v)%string]
     ++ match ps with
        | [] => []
        | _ :: _ => "Arguments:" :: arg_texts 1 ps
        end
     ++ [("10 + 20 = " ++ fmt_d r)%string])%list.

(** ** Runs on a stream that already holds text

    [after out0 o] is the outcome [o] of a run on the empty stream,
    seen from a stream that held [out0] before. *)

Definition after {A : Type} (out0 : stdout) (o : outcome (A * stdout))
  : outcome (A * stdout) :=
  match o with
  | Done (a, out) => Done (a, (out0 ++ out)%list)
  | OutOfFuel => OutOfFuel
  | Undefined => Undefined
  end.

(** [appends m]: the computation [m] leaves what the stream holds in
    place, and what it does is the same on every stream. *)
Definition appends {A : Type} (m : M A) : Prop :=
  forall out0 : stdout, m out0 = after out0 (m []).

(** * Properties *)

(** ** The [printf] calls of [main] *)

Lemma printf_banner (out : stdout) :
  printf "zbuild Example Project\n" [] out
  = Done (tt, (out ++ [banner_line])%list).
Proof. reflexivity. Qed.

Lemma printf_version (v : string) (out : stdout) :
  printf "Version: %s\n" [FStr v] out
  = Done (tt, (out ++ [version_line v])%list).
Proof. reflexivity. Qed.

Lemma printf_header (out : stdout) :
  printf "Arguments:\n" [] out = Done (tt, (out ++ [header_line])%list).
Proof. reflexivity. Qed.

Lemma printf_arg (i : Z) (a : string) (out : stdout) :
  printf "  [%d]: %s\n" [FInt i; FStr a] out
  = Done (tt, (out ++ [arg_line i a])%list).
Proof. reflexivity. Qed.

Lemma printf_sum (r : Z) (out : stdout) :
  printf "10 + 20 = %d\n" [FInt r] out
  = Done (tt, (out ++ [sum_line r])%list).
Proof. reflexivity. Qed.

(** ** Reading [argv] and stepping the counter *)

Lemma argv_at_middle (pre rest : list string) (a : string) (out : stdout) :
  argv_at (pre ++ a :: rest) (Z.of_nat (List.length pre)) out = Done (a, out).
Proof.
  unfold argv_at.
  destruct (Z.ltb_spec (Z.of_nat (List.length pre)) 0) as [Hneg | _]; [lia |].
  rewrite Nat2Z.id, nth_error_app2 by lia.
  rewrite Nat.sub_diag. reflexivity.
Qed.

Lemma int_incr_below (i : Z) (out : stdout) :
  i < INT_MAX -> int_incr i out = Done (i + 1, out).
Proof.
  intros Hi. unfold int_incr.
  destruct (Z.ltb_spec i INT_MAX); [reflexivity | lia].
Qed.

(** ** The loop

    Started at the index that follows the entries [pre], the loop
    writes the lines of the remaining entries [rest] when its budget
    covers one body execution per entry, and runs out otherwise. *)

Lemma for_loop_done (rest pre : list string) :
  forall (fuel : nat) (out : stdout),
    Z.of_nat (List.length (pre ++ rest)) <= INT_MAX ->
    (List.length rest <= fuel)%nat ->
    for_loop fuel (Z.of_nat (List.length (pre ++ rest))) (pre ++ rest)
      (Z.of_nat (List.length pre)) out
    = Done (tt, (out ++ arg_lines (Z.of_nat (List.length pre)) rest)%list).
Proof.
  revert pre.
  induction rest as [| a rest IH]; intros pre fuel out Hmax Hfuel.
  - rewrite app_nil_r. destruct fuel; simpl; rewrite Z.ltb_irrefl;
      unfold ret; rewrite app_nil_r; reflexivity.
  - destruct fuel as [| fuel]; [simpl in Hfuel; lia |].
    assert (Hlt : Z.of_nat (List.length pre)
                  < Z.of_nat (List.length (pre ++ a :: rest))).
    { rewrite length_app. simpl. lia. }
    cbn [for_loop].
    destruct (Z.ltb_spec (Z.of_nat (List.length pre))
                (Z.of_nat (List.length (pre ++ a :: rest)))) as [_ | Hge];
      [| lia].
    unfold bind at 1. rewrite argv_at_middle.
    unfold bind at 1. rewrite printf_arg.
    unfold bind at 1. rewrite int_incr_below by lia.
    replace (Z.of_nat (List.length pre) + 1)
      with (Z.of_nat (List.length (pre ++ [a])))
      by (rewrite length_app; simpl; lia).
    replace (pre ++ a :: rest)%list with ((pre ++ [a]) ++ rest)%list
      by (rewrite <- app_assoc; reflexivity).
    rewrite IH.
    + rewrite <- app_assoc. cbn [arg_lines]. do 3 f_equal.
      rewrite length_app, Nat2Z.inj_add. reflexivity.
    + rewrite <- app_assoc. exact Hmax.
    + simpl in Hfuel. lia.
Qed.

Lemma for_loop_out_of_fuel (rest pre : list string) :
  forall (fuel : nat) (out : stdout),
    Z.of_nat (List.length (pre ++ rest)) <= INT_MAX ->
    (fuel < List.length rest)%nat ->
    for_loop fuel (Z.of_nat (List.length (pre ++ rest))) (pre ++ rest)
      (Z.of_nat (List.length pre)) out
    = OutOfFuel.
Proof.
  revert pre.
  induction rest as [| a rest IH]; intros pre fuel out Hmax Hfuel.
  - simpl in Hfuel. lia.
  - assert (Hlt : Z.of_nat (List.length pre)
                  < Z.of_nat (List.length (pre ++ a :: rest))).
    { rewrite length_app. simpl. lia. }
    destruct fuel as [| fuel]; cbn [for_loop];
      destruct (Z.ltb_spec (Z.of_nat (List.length pre))
                  (Z.of_nat (List.length (pre ++ a :: rest)))) as [_ | Hge];
      try lia; [reflexivity |].
    unfold bind at 1. rewrite argv_at_middle.
    unfold bind at 1. rewrite printf_arg.
    unfold bind at 1. rewrite int_incr_below by lia.
    replace (Z.of_nat (List.length pre) + 1)
      with (Z.of_nat (List.length (pre ++ [a])))
      by (rewrite length_app; simpl; lia).
    replace (pre ++ a :: rest)%list with ((pre ++ [a]) ++ rest)%list
      by (rewrite <- app_assoc; reflexivity).
    apply IH.
    + rewrite <- app_assoc. exact Hmax.
    + simpl in Hfuel. lia.
Qed.

(** ** Whole runs *)

Section Runs.

Variable v : string.
Variable calc : Z -> Z -> Z.

(** The test [argc > 1] holds exactly when there is a parameter. *)
Lemma argc_gt_1 (argc : Z) (argv : list string) :
  wf_invocation argc argv ->
  (argc >? 1) = negb (Nat.eqb (List.length (params argv)) 0).
Proof.
  intros [-> _].
  destruct argv as [| p [| a rest]]; try reflexivity.
  cbn [params tl List.length Nat.eqb negb].
  apply Z.gtb_lt. lia.
Qed.

(** With a budget of one body execution per parameter, [main] returns
    0 after writing the text of the specification. *)
Lemma run_done (fuel : nat) (argc : Z) (argv : list string) :
  wf_invocation argc argv ->
  (List.length (params argv) <= fuel)%nat ->
  run v calc fuel argc argv
  = Done (0, spec_stdout v (calc 10 20) (params argv)).
Proof.
  intros Hwf Hfuel.
  unfold run, main.
  rewrite (argc_gt_1 argc argv Hwf).
  destruct Hwf as [-> Hmax].
  destruct argv as [| p [| a rest]]; try reflexivity.
  cbn [params tl] in *.
  change (negb (Nat.eqb (List.length (a :: rest)) 0)) with true.
  cbv iota.
  unfold bind at 1. rewrite printf_banner.
  unfold bind at 1. rewrite printf_version.
  unfold bind at 1. unfold bind at 1. rewrite printf_header.
  rewrite (for_loop_done (a :: rest) [p]) by assumption.
  unfold bind. rewrite printf_sum. reflexivity.
Qed.

(** With less, the run stops inside the loop. *)
Lemma run_out_of_fuel (fuel : nat) (argc : Z) (argv : list string) :
  wf_invocation argc argv ->
  (fuel < List.length (params argv))%nat ->
  run v calc fuel argc argv = OutOfFuel.
Proof.
  intros Hwf Hfuel.
  unfold run, main.
  rewrite (argc_gt_1 argc argv Hwf).
  destruct Hwf as [-> Hmax].
  destruct argv as [| p [| a rest]]; try (simpl in Hfuel; lia).
  cbn [params tl] in *.
  change (negb (Nat.eqb (List.length (a :: rest)) 0)) with true.
  cbv iota.
  unfold bind at 1. rewrite printf_banner.
  unfold bind at 1. rewrite printf_version.
  unfold bind at 1. unfold bind at 1. rewrite printf_header.
  rewrite (for_loop_out_of_fuel (a :: rest) [p]) by assumption.
  reflexivity.
Qed.

End Runs.

(** ** The argument lines *)

Lemma arg_lines_length (ps : list string) :
  forall i : Z, List.length (arg_lines i ps) = List.length ps.
Proof.
  induction ps as [| p ps IH]; intros i; simpl; [reflexivity |].
  now rewrite IH.
Qed.

Lemma arg_lines_nth (ps : list string) :
  forall (i : Z) (k : nat) (p : string),
    nth_error ps k = Some p ->
    nth_error (arg_lines i ps) k = Some (arg_line (i + Z.of_nat k) p).
Proof.
  induction ps as [| q ps IH]; intros i k p Hk.
  - destruct k; discriminate.
  - destruct k as [| k].
    + injection Hk as ->. simpl. now rewrite Z.add_0_r.
    + cbn [nth_error arg_lines] in *.
      rewrite (IH (i + 1) k p Hk). do 2 f_equal. lia.
Qed.

Lemma arg_lines_in (ps : list string) :
  forall (i : Z) (l : string),
    In l (arg_lines i ps) ->
    exists (k : nat) (p : string),
      nth_error ps k = Some p /\ l = arg_line (i + Z.of_nat k) p.
Proof.
  induction ps as [| q ps IH]; intros i l Hin; [destruct Hin |].
  destruct Hin as [<- | Hin].
  - exists 0%nat, q. split; [reflexivity | now rewrite Z.add_0_r].
  - destruct (IH _ _ Hin) as (k & p & Hk & ->).
    exists (S k), p. split; [exact Hk | f_equal; lia].
Qed.

(** ** No exit status other than 0 *)

Lemma main_exit_code (v : string) (calc : Z -> Z -> Z)
    (fuel : nat) (argc : Z) (argv : list string) (out out' : stdout) (rc : Z) :
  main v calc fuel argc argv out = Done (rc, out') -> rc = 0.
Proof.
  unfold main, bind, ret.
  repeat match goal with
         | |- context [match ?x with _ => _ end] => destruct x
         end;
    intros H; try discriminate; now inversion H.
Qed.

(** ** Lines outside the arguments section

    Which lines are written outside positions 3 .. 3 + N - 1 depends on
    the number N of parameters only. *)

Lemma spec_stdout_length (v : string) (r : Z) (ps : list string) :
  List.length (spec_stdout v r ps)
  = (3 + List.length (arguments_section ps))%nat.
Proof.
  unfold spec_stdout. cbn [app List.length].
  rewrite length_app. simpl. lia.
Qed.

Lemma arguments_section_length (ps1 ps2 : list string) :
  List.length ps1 = List.length ps2 ->
  List.length (arguments_section ps1) = List.length (arguments_section ps2).
Proof.
  intros Hlen.
  destruct ps1 as [| q1 ps1], ps2 as [| q2 ps2]; try discriminate;
    [reflexivity |].
  unfold arguments_section. cbn [List.length].
  rewrite !arg_lines_length. congruence.
Qed.

Lemma spec_stdout_nth_outside
    (v : string) (r : Z) (ps1 ps2 : list string) (k : nat) :
  List.length ps1 = List.length ps2 ->
  ~ (3 <= k < 3 + List.length ps1)%nat ->
  nth_error (spec_stdout v r ps1) k = nth_error (spec_stdout v r ps2) k.
Proof.
  intros Hlen Hout.
  destruct ps1 as [| q1 ps1], ps2 as [| q2 ps2]; try discriminate;
    [reflexivity |].
  destruct k as [| [| [| k]]]; try reflexivity.
  unfold spec_stdout, arguments_section. cbn [app nth_error].
  assert (Hk : (List.length (q1 :: ps1) <= k)%nat) by lia.
  rewrite !nth_error_app2 by (rewrite arg_lines_length; lia).
  now rewrite !arg_lines_length, Hlen.
Qed.

Lemma spec_stdout_last (v : string) (r : Z) (ps : list string) :
  last (spec_stdout v r ps) "" = sum_line r.
Proof.
  unfold spec_stdout. rewrite app_assoc. apply last_last.
Qed.

(** ** The conversion [%d]

    [fmt_d] writes the decimal numeral of its argument: reading the
    text back gives the integer. *)

Lemma fmt_d_decimal (z : Z) :
  option_map Z.of_int (NilZero.int_of_string (fmt_d z)) = Some z.
Proof.
  unfold fmt_d.
  rewrite NilZero.isi.
  - simpl. now rewrite DecimalZ.of_to.
  - destruct z; simpl; try discriminate.
    intros [= H]. now apply (DecimalPos.Unsigned.to_uint_nonnil p).
  - destruct z; simpl; try discriminate.
    intros [= H]. now apply (DecimalPos.Unsigned.to_uint_nonnil p).
Qed.

Lemma fmt_d_inj (z z' : Z) : fmt_d z = fmt_d z' -> z = z'.
Proof.
  intros H. pose proof (fmt_d_decimal z) as Hz.
  rewrite H, fmt_d_decimal in Hz. now injection Hz.
Qed.

Lemma no_lf_uint (d : Decimal.uint) :
  no_lf (NilEmpty.string_of_uint d) = true.
Proof. induction d; simpl; auto. Qed.

Lemma no_lf_fmt_d (z : Z) : no_lf (fmt_d z) = true.
Proof.
  unfold fmt_d.
  destruct (Z.to_int z) as [d | d]; simpl;
    destruct d; try reflexivity; apply (no_lf_uint (_ d)).
Qed.

(** ** Lines of text *)

Lemma append_assoc (s t u : string) : s ++ (t ++ u) = (s ++ t) ++ u.
Proof.
  induction s as [| c s IH]; simpl; [reflexivity | now rewrite IH].
Qed.

Lemma no_lf_app (s t : string) :
  no_lf (s ++ t) = no_lf s && no_lf t.
Proof.
  induction s as [| c s IH]; simpl; [reflexivity |].
  now rewrite IH, andb_assoc.
Qed.

Lemma text_lines_line (l rest : string) :
  no_lf l = true ->
  text_lines ((l ++ nl) ++ rest) = l :: text_lines rest.
Proof.
  induction l as [| c l IH]; intros Hl.
  - reflexivity.
  - simpl in Hl. apply andb_prop in Hl as [Hc Hl].
    cbn [append text_lines].
    apply negb_true_iff in Hc. rewrite Hc.
    now rewrite (IH Hl).
Qed.

Lemma concat_cons (l : string) (ls : list string) :
  String.concat "" (l :: ls) = l ++ String.concat "" ls.
Proof.
  destruct ls as [| l' ls]; simpl; [| reflexivity].
  induction l as [| c l IH]; simpl; [reflexivity | now rewrite <- IH].
Qed.

(** Writing newline-free lines, each followed by a line feed, and
    cutting the text at the line feeds gives the lines back. *)
Lemma text_lines_stdout (ls : list string) :
  forallb no_lf ls = true ->
  text_lines (stdout_text (map (fun l => l ++ nl) ls)) = ls.
Proof.
  unfold stdout_text.
  induction ls as [| l ls IH]; intros Hls; [reflexivity |].
  simpl in Hls. apply andb_prop in Hls as [Hl Hls].
  cbn [map]. rewrite concat_cons, (text_lines_line _ _ Hl).
  now rewrite (IH Hls).
Qed.

Lemma arg_lines_texts (ps : list string) :
  forall i : Z, arg_lines i ps = map (fun l => l ++ nl) (arg_texts i ps).
Proof.
  induction ps as [| p ps IH]; intros i; [reflexivity |].
  cbn [arg_lines arg_texts map]. rewrite IH. f_equal.
  unfold arg_line. now rewrite !append_assoc.
Qed.

Lemma arg_texts_no_lf (ps : list string) :
  forall i : Z,
    forallb no_lf ps = true -> forallb no_lf (arg_texts i ps) = true.
Proof.
  induction ps as [| p ps IH]; intros i Hps; [reflexivity |].
  simpl in Hps. apply andb_prop in Hps as [Hp Hps].
  cbn [arg_texts forallb].
  rewrite (IH _ Hps), andb_true_r.
  rewrite !no_lf_app, no_lf_fmt_d, Hp. reflexivity.
Qed.

Lemma spec_stdout_texts (v : string) (r : Z) (ps : list string) :
  spec_stdout v r ps = map (fun l => l ++ nl) (spec_text_lines v r ps).
Proof.
  unfold spec_stdout, spec_text_lines, arguments_section.
  destruct ps as [| p ps]; rewrite !map_app.
  - cbn [map]. unfold banner_line, version_line, sum_line.
    now rewrite !append_assoc.
  - rewrite (map_cons _ "Arguments:"), <- arg_lines_texts.
    cbn [map]. unfold banner_line, version_line, sum_line, header_line.
    now rewrite !append_assoc.
Qed.

Lemma spec_text_lines_no_lf (v : string) (r : Z) (ps : list string) :
  no_lf v = true ->
  forallb no_lf ps = true ->
  forallb no_lf (spec_text_lines v r ps) = true.
Proof.
  intros Hv Hps. unfold spec_text_lines.
  rewrite !forallb_app. cbn [forallb].
  rewrite !no_lf_app, Hv, no_lf_fmt_d.
  destruct ps as [| p ps]; [reflexivity |].
  cbn [forallb]. rewrite (arg_texts_no_lf _ 1 Hps). reflexivity.
Qed.

(** * The documented behaviour of the demo runner *)

(** Discharges [wf_invocation] at a concrete invocation. *)
Ltac wf_concrete := split; [reflexivity | unfold INT_MAX; lia].

(** C1. When the invocation has N >= 1 parameters, the output holds the
    line [Arguments:] followed by exactly N lines before the closing
    sum line; the k-th of them (counting from 1) shows k and the k-th
    parameter, character for character, whatever it contains. *)
Theorem arguments_echoed_in_order
    (v : string) (calc : Z -> Z -> Z)
    (fuel : nat) (argc : Z) (argv : list string) :
  wf_invocation argc argv ->
  (1 <= List.length (params argv))%nat ->
  (List.length (params argv) <= fuel)%nat ->
  exists body : list string,
    run v calc fuel argc argv
    = Done (0, ([banner_line; version_line v; ("Arguments:" ++ nl)%string]
                  ++ body ++ [sum_line (calc 10 20)])%list)
    /\ List.length body = List.length (params argv)
    /\ forall (k : nat) (p : string),
         nth_error (params argv) k = Some p ->
         nth_error body k
         = Some ("  [" ++ fmt_d (Z.of_nat k + 1) ++ "]: " ++ p ++ nl).
Proof.
  intros Hwf Hpos Hfuel.
  exists (arg_lines 1 (params argv)).
  split; [| split].
  - rewrite (run_done v calc fuel argc argv Hwf Hfuel).
    unfold spec_stdout, arguments_section.
    destruct (params argv); [simpl in Hpos; lia | reflexivity].
  - apply arg_lines_length.
  - intros k p Hk.
    rewrite (arg_lines_nth _ 1 k p Hk).
    unfold arg_line. now rewrite Z.add_comm.
Qed.

Lemma arguments_echoed_in_order_witness :
  exists body : list string,
    run "1.0.0" Z.add 2 3 ["prog"; "foo"; "bar baz"]
    = Done (0, ([banner_line; version_line "1.0.0"; ("Arguments:" ++ nl)%string]
                  ++ body ++ [sum_line (10 + 20)])%list)
    /\ List.length body = 2%nat
    /\ forall (k : nat) (p : string),
         nth_error ["foo"; "bar baz"] k = Some p ->
         nth_error body k
         = Some ("  [" ++ fmt_d (Z.of_nat k + 1) ++ "]: " ++ p ++ nl).
Proof.
  apply (arguments_echoed_in_order "1.0.0" Z.add 2 3 ["prog"; "foo"; "bar baz"]).
  - wf_concrete.
  - simpl. lia.
  - simpl. lia.
Defined.

(** C2. When the adder is conforming, that is [calculate(10, 20)] is
    30, the last line written is [10 + 20 = 30], for every sequence of
    parameters. *)
Theorem sum_line_of_conforming_adder
    (v : string) (calc : Z -> Z -> Z)
    (fuel : nat) (argc : Z) (argv : list string) :
  wf_invocation argc argv ->
  (List.length (params argv) <= fuel)%nat ->
  calc 10 20 = 30 ->
  exists front : list string,
    run v calc fuel argc argv
    = Done (0, (front ++ [("10 + 20 = 30" ++ nl)%string])%list).
Proof.
  intros Hwf Hfuel Hsum.
  exists ([banner_line; version_line v] ++ arguments_section (params argv))%list.
  rewrite (run_done v calc fuel argc argv Hwf Hfuel), Hsum.
  unfold spec_stdout. now rewrite <- app_assoc.
Qed.

Lemma sum_line_of_conforming_adder_witness :
  exists front : list string,
    run "1.0.0" Z.add 1 2 ["prog"; "hello"]
    = Done (0, (front ++ [("10 + 20 = 30" ++ nl)%string])%list).
Proof.
  apply (sum_line_of_conforming_adder "1.0.0" Z.add 1 2 ["prog"; "hello"]).
  - wf_concrete.
  - simpl. lia.
  - reflexivity.
Defined.

(** C3. When the invocation has no parameter, the output is exactly
    three lines, the banner, the version and the sum, and neither the
    line [Arguments:] nor any argument line is among them. *)
Theorem no_parameters_three_lines
    (v : string) (calc : Z -> Z -> Z)
    (fuel : nat) (argc : Z) (argv : list string) :
  wf_invocation argc argv ->
  params argv = [] ->
  exists out : stdout,
    run v calc fuel argc argv = Done (0, out)
    /\ out = ["zbuild Example Project" ++ nl;
              "Version: " ++ v ++ nl;
              "10 + 20 = " ++ fmt_d (calc 10 20) ++ nl]
    /\ ~ In ("Arguments:" ++ nl) out
    /\ forall (i : Z) (p : string),
         ~ In ("  [" ++ fmt_d i ++ "]: " ++ p ++ nl) out.
Proof.
  intros Hwf Hnone.
  eexists. split; [| split; [reflexivity |]].
  - rewrite (run_done v calc fuel argc argv Hwf) by (rewrite Hnone; simpl; lia).
    rewrite Hnone. reflexivity.
  - split.
    + intros [H | [H | [H | []]]]; discriminate H.
    + intros i p [H | [H | [H | []]]]; discriminate H.
Qed.

Lemma no_parameters_three_lines_witness :
  exists out : stdout,
    run "1.0.0" Z.add 0 1 ["prog"] = Done (0, out)
    /\ out = ["zbuild Example Project" ++ nl;
              "Version: " ++ "1.0.0" ++ nl;
              "10 + 20 = " ++ fmt_d (10 + 20) ++ nl]
    /\ ~ In ("Arguments:" ++ nl) out
    /\ forall (i : Z) (p : string),
         ~ In ("  [" ++ fmt_d i ++ "]: " ++ p ++ nl) out.
Proof.
  apply (no_parameters_three_lines "1.0.0" Z.add 0 1 ["prog"]).
  - wf_concrete.
  - reflexivity.
Defined.

(** C4. The text of the lines: the banner is [zbuild Example Project];
    the version line is [Version: ] and the provider's string; an
    argument line is two spaces, an opening bracket, the index, a
    closing bracket, a colon, a space and the value; the sum line is
    [10 + 20 = ] and the adder's result.  Every line written has one of
    these texts (or is the header), and each of them is written. *)
Theorem line_formats
    (v : string) (calc : Z -> Z -> Z)
    (fuel : nat) (argc : Z) (argv : list string) :
  wf_invocation argc argv ->
  (List.length (params argv) <= fuel)%nat ->
  exists out : stdout,
    run v calc fuel argc argv = Done (0, out)
    /\ Forall (fun l : string =>
                 l = "zbuild Example Project" ++ nl
                 \/ l = "Version: " ++ v ++ nl
                 \/ l = "Arguments:" ++ nl
                 \/ (exists (k : nat) (p : string),
                        nth_error (params argv) k = Some p
                        /\ l = "  [" ++ fmt_d (Z.of_nat k + 1) ++ "]: "
                                 ++ p ++ nl)
                 \/ l = "10 + 20 = " ++ fmt_d (calc 10 20) ++ nl) out
    /\ In ("zbuild Example Project" ++ nl) out
    /\ In ("Version: " ++ v ++ nl) out
    /\ (forall (k : nat) (p : string),
          nth_error (params argv) k = Some p ->
          In ("  [" ++ fmt_d (Z.of_nat k + 1) ++ "]: " ++ p ++ nl) out)
    /\ In ("10 + 20 = " ++ fmt_d (calc 10 20) ++ nl) out.
Proof.
  intros Hwf Hfuel.
  eexists. split; [apply (run_done v calc fuel argc argv Hwf Hfuel) |].
  unfold spec_stdout. cbn [app].
  split; [| split; [| split; [| split]]].
  - constructor; [left; reflexivity |].
    constructor; [right; left; reflexivity |].
    apply Forall_app. split.
    + unfold arguments_section. destruct (params argv) as [| q ps] eqn:Eps;
        [constructor |].
      constructor; [right; right; left; reflexivity |].
      apply Forall_forall. intros l Hl.
      destruct (arg_lines_in _ _ _ Hl) as (k & p & Hk & ->).
      right; right; right; left. exists k, p.
      split; [exact Hk |]. unfold arg_line. now rewrite Z.add_comm.
    + constructor; [| constructor].
      right; right; right; right; reflexivity.
  - left; reflexivity.
  - right; left; reflexivity.
  - intros k p Hk. right; right. apply in_or_app. left.
    unfold arguments_section. destruct (params argv) as [| q ps] eqn:Eps;
      [destruct k; discriminate |].
    apply in_cons, (nth_error_In _ k).
    rewrite (arg_lines_nth _ 1 k p Hk).
    unfold arg_line. now rewrite Z.add_comm.
  - right; right. apply in_or_app. right. left; reflexivity.
Qed.

Lemma line_formats_witness :
  exists out : stdout,
    run "1.0.0" Z.add 2 3 ["prog"; "foo"; "bar baz"] = Done (0, out)
    /\ Forall (fun l : string =>
                 l = "zbuild Example Project" ++ nl
                 \/ l = "Version: " ++ "1.0.0" ++ nl
                 \/ l = "Arguments:" ++ nl
                 \/ (exists (k : nat) (p : string),
                        nth_error ["foo"; "bar baz"] k = Some p
                        /\ l = "  [" ++ fmt_d (Z.of_nat k + 1) ++ "]: "
                                 ++ p ++ nl)
                 \/ l = "10 + 20 = " ++ fmt_d (10 + 20) ++ nl) out
    /\ In ("zbuild Example Project" ++ nl) out
    /\ In ("Version: " ++ "1.0.0" ++ nl) out
    /\ (forall (k : nat) (p : string),
          nth_error ["foo"; "bar baz"] k = Some p ->
          In ("  [" ++ fmt_d (Z.of_nat k + 1) ++ "]: " ++ p ++ nl) out)
    /\ In ("10 + 20 = " ++ fmt_d (10 + 20) ++ nl) out.
Proof.
  apply (line_formats "1.0.0" Z.add 2 3 ["prog"; "foo"; "bar baz"]).
  - wf_concrete.
  - simpl. lia.
Defined.

(** C5. The lines come in a fixed order: the banner first, the version
    line second; then, when there is no parameter, the sum line; when
    there are N >= 1 parameters, the header, the N argument lines in
    the order of the parameters, and the sum line last. *)
Theorem lines_in_order
    (v : string) (calc : Z -> Z -> Z)
    (fuel : nat) (argc : Z) (argv : list string) :
  wf_invocation argc argv ->
  (List.length (params argv) <= fuel)%nat ->
  exists out : stdout,
    run v calc fuel argc argv = Done (0, out)
    /\ nth_error out 0 = Some banner_line
    /\ nth_error out 1 = Some (version_line v)
    /\ (params argv = [] ->
        nth_error out 2 = Some (sum_line (calc 10 20))
        /\ List.length out = 3%nat)
    /\ (params argv <> [] ->
        nth_error out 2 = Some header_line
        /\ (forall (k : nat) (p : string),
              nth_error (params argv) k = Some p ->
              nth_error out (3 + k) = Some (arg_line (Z.of_nat k + 1) p))
        /\ nth_error out (3 + List.length (params argv))
           = Some (sum_line (calc 10 20))
        /\ List.length out = (4 + List.length (params argv))%nat).
Proof.
  intros Hwf Hfuel.
  eexists. split; [apply (run_done v calc fuel argc argv Hwf Hfuel) |].
  unfold spec_stdout, arguments_section.
  destruct (params argv) as [| q ps] eqn:Eps.
  - split; [reflexivity |]. split; [reflexivity |].
    split; [intros _; split; reflexivity |].
    intros Hne. now contradiction Hne.
  - split; [reflexivity |]. split; [reflexivity |].
    split; [discriminate |]. intros _.
    split; [reflexivity |].
    cbn [app nth_error Nat.add].
    split; [| split].
    + intros k p Hk.
      rewrite nth_error_app1
        by (rewrite arg_lines_length; apply nth_error_Some; congruence).
      rewrite (arg_lines_nth _ 1 k p Hk). now rewrite Z.add_comm.
    + rewrite nth_error_app2 by (rewrite arg_lines_length; lia).
      rewrite arg_lines_length, Nat.sub_diag. reflexivity.
    + cbn [List.length]. rewrite length_app, arg_lines_length.
      simpl. lia.
Qed.

Lemma lines_in_order_witness :
  exists out : stdout,
    run "1.0.0" Z.add 2 3 ["prog"; "foo"; "bar baz"] = Done (0, out)
    /\ nth_error out 0 = Some banner_line
    /\ nth_error out 1 = Some (version_line "1.0.0")
    /\ (["foo"; "bar baz"] = [] ->
        nth_error out 2 = Some (sum_line (10 + 20))
        /\ List.length out = 3%nat)
    /\ (["foo"; "bar baz"] <> [] ->
        nth_error out 2 = Some header_line
        /\ (forall (k : nat) (p : string),
              nth_error ["foo"; "bar baz"] k = Some p ->
              nth_error out (3 + k) = Some (arg_line (Z.of_nat k + 1) p))
        /\ nth_error out (3 + 2) = Some (sum_line (10 + 20))
        /\ List.length out = (4 + 2)%nat).
Proof.
  apply (lines_in_order "1.0.0" Z.add 2 3 ["prog"; "foo"; "bar baz"]).
  - wf_concrete.
  - simpl. lia.
Defined.

(** C6. The exit status is 0 for every invocation: whatever the
    arguments and the budget, a run of [main] that returns returns 0,
    and on every invocation the run does return. *)
Theorem exit_code_always_zero
    (v : string) (calc : Z -> Z -> Z)
    (fuel : nat) (argc : Z) (argv : list string) :
  (forall (rc : Z) (out : stdout),
      run v calc fuel argc argv = Done (rc, out) -> rc = 0)
  /\ (wf_invocation argc argv ->
      (List.length (params argv) <= fuel)%nat ->
      exists out : stdout, run v calc fuel argc argv = Done (0, out)).
Proof.
  split.
  - intros rc out Hrun. exact (main_exit_code _ _ _ _ _ _ _ _ Hrun).
  - intros Hwf Hfuel. eexists.
    apply (run_done v calc fuel argc argv Hwf Hfuel).
Qed.

Lemma exit_code_always_zero_witness :
  (exists out : stdout,
      run "1.0.0" Z.add 1 2 ["prog"; "hello"] = Done (0, out))
  /\ (forall (rc : Z) (out : stdout),
         run "1.0.0" Z.add 0 2 ["prog"; "hello"] = Done (rc, out) -> rc = 0).
Proof.
  split.
  - apply (proj2 (exit_code_always_zero "1.0.0" Z.add 1 2 ["prog"; "hello"])).
    + wf_concrete.
    + simpl. lia.
  - apply (proj1 (exit_code_always_zero "1.0.0" Z.add 0 2 ["prog"; "hello"])).
Defined.

(** C7. The run is deterministic: two runs with the same sequence of
    parameters, the same version string and the same value of
    [calculate(10, 20)] write the same output and return the same exit
    status.  Neither the program name, nor the rest of the adder, nor
    the budget (once sufficient) has any influence. *)
Theorem run_deterministic
    (v : string) (calc1 calc2 : Z -> Z -> Z)
    (fuel1 fuel2 : nat) (argc1 argc2 : Z) (argv1 argv2 : list string) :
  wf_invocation argc1 argv1 ->
  wf_invocation argc2 argv2 ->
  params argv1 = params argv2 ->
  calc1 10 20 = calc2 10 20 ->
  (List.length (params argv1) <= fuel1)%nat ->
  (List.length (params argv2) <= fuel2)%nat ->
  exists (rc : Z) (out : stdout),
    run v calc1 fuel1 argc1 argv1 = Done (rc, out)
    /\ run v calc2 fuel2 argc2 argv2 = Done (rc, out).
Proof.
  intros Hwf1 Hwf2 Hps Hsum Hf1 Hf2.
  exists 0, (spec_stdout v (calc1 10 20) (params argv1)).
  split.
  - apply run_done; assumption.
  - rewrite Hps, Hsum. apply run_done; assumption.
Qed.

Lemma run_deterministic_witness :
  exists (rc : Z) (out : stdout),
    run "1.0.0" Z.add 1 2 ["prog"; "hello"] = Done (rc, out)
    /\ run "1.0.0" (fun a b : Z => 3 * a) 5 2 ["./demo"; "hello"]
       = Done (rc, out).
Proof.
  apply (run_deterministic "1.0.0" Z.add (fun a b : Z => 3 * a) 1 5 2 2
           ["prog"; "hello"] ["./demo"; "hello"]).
  - wf_concrete.
  - wf_concrete.
  - reflexivity.
  - reflexivity.
  - simpl. lia.
  - simpl. lia.
Defined.

(** C8. The run terminates on every finite sequence of parameters: the
    loop body is executed exactly once per parameter, for the indices
    1 to [argc - 1], and the rest of [main] is straight-line code.  A
    budget of N body executions is enough for an invocation with N
    parameters, and no smaller budget is; this holds of the loop and of
    the whole run. *)
Theorem main_terminates
    (v : string) (calc : Z -> Z -> Z)
    (fuel : nat) (argc : Z) (argv : list string) :
  wf_invocation argc argv ->
  ((List.length (params argv) <= fuel)%nat ->
   (forall out : stdout,
       for_loop fuel argc argv 1 out
       = Done (tt, (out ++ arg_lines 1 (params argv))%list))
   /\ exists out : stdout, run v calc fuel argc argv = Done (0, out))
  /\ ((fuel < List.length (params argv))%nat ->
      (forall out : stdout, for_loop fuel argc argv 1 out = OutOfFuel)
      /\ run v calc fuel argc argv = OutOfFuel).
Proof.
  intros Hwf. split; intros Hfuel; split.
  - intros out. destruct Hwf as [-> Hmax].
    destruct argv as [| p ps].
    + destruct fuel; simpl; unfold ret; now rewrite app_nil_r.
    + apply (for_loop_done ps [p]); assumption.
  - eexists. apply (run_done v calc fuel argc argv Hwf Hfuel).
  - intros out. destruct Hwf as [-> Hmax].
    destruct argv as [| p ps]; [simpl in Hfuel; lia |].
    apply (for_loop_out_of_fuel ps [p]); assumption.
  - apply (run_out_of_fuel v calc fuel argc argv Hwf Hfuel).
Qed.

Lemma main_terminates_witness :
  ((forall out : stdout,
       for_loop 2 3 ["prog"; "foo"; "bar baz"] 1 out
       = Done (tt, (out ++ arg_lines 1 ["foo"; "bar baz"])%list))
   /\ exists out : stdout,
       run "1.0.0" Z.add 2 3 ["prog"; "foo"; "bar baz"] = Done (0, out))
  /\ ((forall out : stdout,
          for_loop 1 3 ["prog"; "foo"; "bar baz"] 1 out = OutOfFuel)
      /\ run "1.0.0" Z.add 1 3 ["prog"; "foo"; "bar baz"] = OutOfFuel).
Proof.
  split.
  - apply (proj1 (main_terminates "1.0.0" Z.add 2 3 ["prog"; "foo"; "bar baz"]
                    ltac:(wf_concrete))).
    simpl. lia.
  - apply (proj2 (main_terminates "1.0.0" Z.add 1 3 ["prog"; "foo"; "bar baz"]
                    ltac:(wf_concrete))).
    simpl. lia.
Defined.

(** C9. The adder's result is not validated: whatever integer r
    [calculate(10, 20)] returns, the last line written is [10 + 20 = ]
    followed by r in decimal. *)
Theorem sum_line_of_any_adder
    (v : string) (calc : Z -> Z -> Z) (r : Z)
    (fuel : nat) (argc : Z) (argv : list string) :
  wf_invocation argc argv ->
  (List.length (params argv) <= fuel)%nat ->
  calc 10 20 = r ->
  exists front : list string,
    run v calc fuel argc argv
    = Done (0, (front ++ [("10 + 20 = " ++ fmt_d r ++ nl)%string])%list).
Proof.
  intros Hwf Hfuel Hr.
  exists ([banner_line; version_line v] ++ arguments_section (params argv))%list.
  rewrite (run_done v calc fuel argc argv Hwf Hfuel), Hr.
  unfold spec_stdout. now rewrite <- app_assoc.
Qed.

Lemma sum_line_of_any_adder_witness :
  exists front : list string,
    run "1.0.0" (fun _ _ : Z => -7) 0 1 ["prog"]
    = Done (0, (front ++ [("10 + 20 = -7" ++ nl)%string])%list).
Proof.
  apply (sum_line_of_any_adder "1.0.0" (fun _ _ : Z => -7) (-7) 0 1 ["prog"]).
  - wf_concrete.
  - simpl. lia.
  - reflexivity.
Defined.

(** C10. The parameters influence the arguments section only.  Two
    invocations with the same number N of parameters, the same version
    string and the same adder behave alike under every budget: both
    runs return or both stop in the loop; when they return, the exit
    status and the number of lines are the same, the banner, the
    version line and the sum line are identical, and two lines at the
    same position differ only inside positions 3 .. 3 + N - 1, the
    echoed parameters. *)
Theorem parameters_noninterference
    (v : string) (calc : Z -> Z -> Z)
    (fuel : nat) (argc : Z) (argv1 argv2 : list string) :
  wf_invocation argc argv1 ->
  wf_invocation argc argv2 ->
  match run v calc fuel argc argv1, run v calc fuel argc argv2 with
  | Done (rc1, out1), Done (rc2, out2) =>
      rc1 = rc2
      /\ List.length out1 = List.length out2
      /\ nth_error out1 0 = Some banner_line
      /\ nth_error out2 0 = Some banner_line
      /\ nth_error out1 1 = Some (version_line v)
      /\ nth_error out2 1 = Some (version_line v)
      /\ last out1 "" = sum_line (calc 10 20)
      /\ last out2 "" = sum_line (calc 10 20)
      /\ forall k : nat,
           nth_error out1 k <> nth_error out2 k ->
           (3 <= k < 3 + List.length (params argv1))%nat
  | OutOfFuel, OutOfFuel => True
  | _, _ => False
  end.
Proof.
  intros Hwf1 Hwf2.
  assert (Hlen : List.length (params argv1) = List.length (params argv2)).
  { destruct Hwf1 as [H1 _], Hwf2 as [H2 _]. rewrite H1 in H2.
    apply Nat2Z.inj in H2.
    destruct argv1, argv2; try discriminate; [reflexivity |].
    simpl in *. lia. }
  destruct (le_lt_dec (List.length (params argv1)) fuel) as [Hfuel | Hfuel].
  - rewrite (run_done v calc fuel argc argv1 Hwf1 Hfuel).
    rewrite (run_done v calc fuel argc argv2 Hwf2) by lia.
    split; [reflexivity |].
    split; [rewrite !spec_stdout_length;
            now rewrite (arguments_section_length _ _ Hlen) |].
    do 4 (split; [reflexivity |]).
    do 2 (split; [apply spec_stdout_last |]).
    intros k Hdiff.
    destruct (le_lt_dec 3 k) as [H3 | H3];
      [destruct (le_lt_dec (3 + List.length (params argv1)) k) as [HN | HN];
       [| lia] |];
      exfalso; apply Hdiff; apply spec_stdout_nth_outside; try assumption; lia.
  - rewrite (run_out_of_fuel v calc fuel argc argv1 Hwf1 Hfuel).
    rewrite (run_out_of_fuel v calc fuel argc argv2 Hwf2) by lia.
    exact I.
Qed.

Lemma parameters_noninterference_witness :
  match run "1.0.0" Z.add 1 2 ["prog"; "hello"],
        run "1.0.0" Z.add 1 2 ["prog"; "secret"] with
  | Done (rc1, out1), Done (rc2, out2) =>
      rc1 = rc2
      /\ List.length out1 = List.length out2
      /\ nth_error out1 0 = Some banner_line
      /\ nth_error out2 0 = Some banner_line
      /\ nth_error out1 1 = Some (version_line "1.0.0")
      /\ nth_error out2 1 = Some (version_line "1.0.0")
      /\ last out1 "" = sum_line (10 + 20)
      /\ last out2 "" = sum_line (10 + 20)
      /\ forall k : nat,
           nth_error out1 k <> nth_error out2 k ->
           (3 <= k < 3 + 1)%nat
  | OutOfFuel, OutOfFuel => True
  | _, _ => False
  end.
Proof.
  apply (parameters_noninterference "1.0.0" Z.add 1 2
           ["prog"; "hello"] ["prog"; "secret"]).
  - wf_concrete.
  - wf_concrete.
Defined.

(** * The output as text

    The statements above take as a line what one [printf] call writes,
    line feed included.  When neither the version string nor a
    parameter contains a line feed, these are the lines a reader of the
    stream sees. *)

Lemma spec_stdout_text_lines (v : string) (r : Z) (ps : list string) :
  no_lf v = true ->
  forallb no_lf ps = true ->
  text_lines (stdout_text (spec_stdout v r ps)) = spec_text_lines v r ps.
Proof.
  intros Hv Hps. rewrite spec_stdout_texts.
  apply text_lines_stdout, spec_text_lines_no_lf; assumption.
Qed.

(** X1. When neither the version string nor a parameter contains a
    line feed, the text written, cut at the line feeds, is the banner,
    the version line, then (with parameters only) [Arguments:] and one
    line [  [k]: value] per parameter, and the sum line: 3 lines
    without parameters, N + 4 with N of them. *)
Theorem output_text_lines
    (v : string) (calc : Z -> Z -> Z)
    (fuel : nat) (argc : Z) (argv : list string) :
  wf_invocation argc argv ->
  (List.length (params argv) <= fuel)%nat ->
  no_lf v = true ->
  forallb no_lf (params argv) = true ->
  exists out : stdout,
    run v calc fuel argc argv = Done (0, out)
    /\ text_lines (stdout_text out)
       = spec_text_lines v (calc 10 20) (params argv).
Proof.
  intros Hwf Hfuel Hv Hps.
  eexists. split; [apply (run_done v calc fuel argc argv Hwf Hfuel) |].
  apply spec_stdout_text_lines; assumption.
Qed.

Lemma output_text_lines_witness :
  exists out : stdout,
    run "1.0.0" Z.add 2 3 ["prog"; "foo"; "bar baz"] = Done (0, out)
    /\ text_lines (stdout_text out)
       = ["zbuild Example Project"; "Version: 1.0.0"; "Arguments:";
          "  [1]: foo"; "  [2]: bar baz"; "10 + 20 = 30"].
Proof.
  apply (output_text_lines "1.0.0" Z.add 2 3 ["prog"; "foo"; "bar baz"]).
  - wf_concrete.
  - simpl. lia.
  - reflexivity.
  - reflexivity.
Defined.

(** Without parameters the text has three lines, none of them the
    header. *)
Corollary no_parameters_text
    (v : string) (calc : Z -> Z -> Z)
    (fuel : nat) (argc : Z) (argv : list string) :
  wf_invocation argc argv ->
  params argv = [] ->
  no_lf v = true ->
  exists out : stdout,
    run v calc fuel argc argv = Done (0, out)
    /\ text_lines (stdout_text out)
       = ["zbuild Example Project"; "Version: " ++ v;
          "10 + 20 = " ++ fmt_d (calc 10 20)]
    /\ ~ In "Arguments:" (text_lines (stdout_text out)).
Proof.
  intros Hwf Hnone Hv.
  eexists. split.
  - apply (run_done v calc fuel argc argv Hwf).
    rewrite Hnone. simpl. lia.
  - rewrite Hnone, spec_stdout_text_lines by (assumption || reflexivity).
    split; [reflexivity |].
    intros [H | [H | [H | []]]]; discriminate H.
Qed.

(** A parameter is echoed verbatim, a line feed in it included: its
    argument line then spreads over two lines of text. *)
Example line_feed_in_parameter :
  exists out : stdout,
    run "1.0.0" Z.add 1 2 ["prog"; "a" ++ nl ++ "b"] = Done (0, out)
    /\ nth_error out 3 = Some ("  [1]: " ++ ("a" ++ nl ++ "b") ++ nl)
    /\ text_lines (stdout_text out)
       = ["zbuild Example Project"; "Version: 1.0.0"; "Arguments:";
          "  [1]: a"; "b"; "10 + 20 = 30"].
Proof.
  eexists. split; [vm_compute; reflexivity | split; reflexivity].
Qed.

(** * The scenarios of the specification *)

(** Scenario A: no parameter. *)
Example scenario_A :
  run "1.0.0" Z.add 0 1 ["prog"]
  = Done (0, map (fun l => l ++ nl)
               ["zbuild Example Project"; "Version: 1.0.0"; "10 + 20 = 30"]).
Proof. reflexivity. Qed.

(** Scenario B: the parameter [hello]. *)
Example scenario_B :
  run "1.0.0" Z.add 1 2 ["prog"; "hello"]
  = Done (0, map (fun l => l ++ nl)
               ["zbuild Example Project"; "Version: 1.0.0"; "Arguments:";
                "  [1]: hello"; "10 + 20 = 30"]).
Proof. reflexivity. Qed.

(** Scenario C: the parameters [foo] and [bar baz]. *)
Example scenario_C :
  run "1.0.0" Z.add 2 3 ["prog"; "foo"; "bar baz"]
  = Done (0, map (fun l => l ++ nl)
               ["zbuild Example Project"; "Version: 1.0.0"; "Arguments:";
                "  [1]: foo"; "  [2]: bar baz"; "10 + 20 = 30"]).
Proof. reflexivity. Qed.

(** An empty argument vector ([argc] is 0) is an invocation without
    parameters like any other. *)
Example empty_argv :
  run "1.0.0" Z.add 0 0 []
  = Done (0, map (fun l => l ++ nl)
               ["zbuild Example Project"; "Version: 1.0.0"; "10 + 20 = 30"]).
Proof. reflexivity. Qed.

(** Outside well-formed invocations the model reports the undefined
    read: an [argc] larger than the vector makes the loop read past
    its end. *)
Example argc_past_the_vector :
  run "1.0.0" Z.add 5 3 ["prog"; "foo"] = Undefined.
Proof. reflexivity. Qed.

(** * Beyond the claims: the stream, the bounds of [argv], the text *)

(** ** [main] only appends *)

Lemma appends_ret {A : Type} (a : A) : appends (ret a).
Proof. intros out0. unfold ret, after. now rewrite app_nil_r. Qed.

Lemma appends_undefined {A : Type} : appends (@undefined A).
Proof. intros out0. reflexivity. Qed.

Lemma appends_out_of_fuel {A : Type} : appends (@out_of_fuel A).
Proof. intros out0. reflexivity. Qed.

Lemma appends_printf (fmt : string) (args : list farg) :
  appends (printf fmt args).
Proof.
  intros out0. unfold printf.
  destruct (format (c_lit fmt) args); reflexivity.
Qed.

Lemma appends_argv_at (argv : list string) (i : Z) : appends (argv_at argv i).
Proof.
  unfold argv_at.
  destruct (i <? 0); [apply appends_undefined |].
  destruct (nth_error argv (Z.to_nat i));
    [apply appends_ret | apply appends_undefined].
Qed.

Lemma appends_int_incr (i : Z) : appends (int_incr i).
Proof.
  unfold int_incr.
  destruct (i <? INT_MAX); [apply appends_ret | apply appends_undefined].
Qed.

Lemma appends_bind {A B : Type} (m : M A) (k : A -> M B) :
  appends m -> (forall a : A, appends (k a)) -> appends (bind m k).
Proof.
  intros Hm Hk out0. unfold bind.
  rewrite (Hm out0).
  destruct (m []) as [[a out] | |]; cbn [after]; try reflexivity.
  rewrite (Hk a (out0 ++ out)%list), (Hk a out).
  destruct (k a []) as [[b out'] | |]; cbn [after]; try reflexivity.
  now rewrite app_assoc.
Qed.

Lemma appends_for_loop (fuel : nat) (argc : Z) (argv : list string) :
  forall i : Z, appends (for_loop fuel argc argv i).
Proof.
  induction fuel as [| fuel IH]; intros i; cbn [for_loop];
    destruct (i <? argc); try apply appends_ret;
    [apply appends_out_of_fuel |].
  apply appends_bind; [apply appends_argv_at | intros a].
  apply appends_bind; [apply appends_printf | intros _].
  apply appends_bind; [apply appends_int_incr | intros i'].
  apply IH.
Qed.

(** [main] only appends to the stream: entered on a stream that
    already holds [out0], it ends as it does on the empty stream, and
    when it returns the stream holds [out0] followed by what the run on
    the empty stream wrote.  This holds for every [argc] and [argv], and
    is why [run] starts from the empty stream. *)
Theorem main_appends_to_stream
    (v : string) (calc : Z -> Z -> Z)
    (fuel : nat) (argc : Z) (argv : list string) (out0 : stdout) :
  main v calc fuel argc argv out0 = after out0 (run v calc fuel argc argv).
Proof.
  unfold run. revert out0. change (appends (main v calc fuel argc argv)).
  unfold main.
  apply appends_bind; [apply appends_printf | intros _].
  apply appends_bind; [apply appends_printf | intros _].
  apply appends_bind.
  - destruct (argc >? 1); [| apply appends_ret].
    apply appends_bind; [apply appends_printf | intros _].
    apply appends_for_loop.
  - intros _.
    apply appends_bind; [apply appends_printf | intros _].
    apply appends_ret.
Qed.

(** ** The bounds of [argv]

    The loop is bounded by [argc] alone.  With entries beyond [argc] in
    the vector it stops before them; with fewer entries than [argc] it
    reads past the last one. *)


(** One turn of the loop at the index that follows [pre]. *)
Lemma for_loop_step
    (fuel : nat) (argc : Z) (pre rest : list string) (a : string)
    (out : stdout) :
  Z.of_nat (List.length pre) < argc ->
  argc <= INT_MAX ->
  for_loop (S fuel) argc (pre ++ a :: rest) (Z.of_nat (List.length pre)) out
  = for_loop fuel argc ((pre ++ [a]) ++ rest)
      (Z.of_nat (List.length (pre ++ [a])))
      (out ++ [arg_line (Z.of_nat (List.length pre)) a])%list.
Proof.
  intros Hlt Hmax. cbn [for_loop].
  destruct (Z.ltb_spec (Z.of_nat (List.length pre)) argc) as [_ | Hge];
    [| lia].
  unfold bind at 1. rewrite argv_at_middle.
  unfold bind at 1. rewrite printf_arg.
  unfold bind at 1. rewrite int_incr_below by lia.
  rewrite <- app_assoc, length_app, Nat2Z.inj_add. reflexivity.
Qed.

Lemma for_loop_no_fuel (argc : Z) (argv : list string) (i : Z) (out : stdout) :
  i < argc -> for_loop 0 argc argv i out = OutOfFuel.
Proof.
  intros Hlt. cbn [for_loop].
  destruct (Z.ltb_spec i argc); [reflexivity | lia].
Qed.

(** [argc] within the vector: the entries [rest] below [argc] are
    echoed, the entries [extra] at [argc] and beyond are not read. *)
Lemma for_loop_within (rest pre extra : list string) :
  forall (fuel : nat) (out : stdout),
    Z.of_nat (List.length (pre ++ rest)) <= INT_MAX ->
    for_loop fuel (Z.of_nat (List.length (pre ++ rest)))
      (pre ++ rest ++ extra) (Z.of_nat (List.length pre)) out
    = if (List.length rest <=? fuel)%nat
      then Done (tt, (out ++ arg_lines (Z.of_nat (List.length pre)) rest)%list)
      else OutOfFuel.
Proof.
  revert pre.
  induction rest as [| a rest IH]; intros pre fuel out Hmax.
  - rewrite app_nil_r. cbn [List.length Nat.leb arg_lines].
    rewrite app_nil_r.
    destruct fuel; cbn [for_loop]; rewrite Z.ltb_irrefl; reflexivity.
  - assert (Hlt : Z.of_nat (List.length pre)
                  < Z.of_nat (List.length (pre ++ a :: rest)))
      by (rewrite length_app; simpl; lia).
    destruct fuel as [| fuel].
    + now rewrite for_loop_no_fuel.
    + cbn [app]. rewrite for_loop_step by assumption.
      replace (pre ++ a :: rest)%list with ((pre ++ [a]) ++ rest)%list
        by (rewrite <- app_assoc; reflexivity).
      rewrite IH by (rewrite <- app_assoc; exact Hmax).
      cbn [List.length Nat.leb arg_lines].
      destruct (List.length rest <=? fuel)%nat; [| reflexivity].
      rewrite <- app_assoc, length_app, Nat2Z.inj_add. reflexivity.
Qed.


(** X3. [argc] within the vector.  When [argc] does not exceed the
    number of entries of [argv], [main] echoes the entries 1 to
    [argc - 1] and nothing of what lies at [argc] or beyond: it returns
    0 and writes what it writes for the first [argc - 1] parameters,
    once the budget covers [argc - 1] body executions, and never
    performs an undefined operation.  An [argc] of 1 or less, negative
    values included, gives the three lines of an invocation without
    parameters. *)
Theorem main_argc_within_vector
    (v : string) (calc : Z -> Z -> Z)
    (fuel : nat) (argc : Z) (argv : list string) :
  argc <= Z.of_nat (List.length argv) ->
  argc <= INT_MAX ->
  run v calc fuel argc argv
  = if (Z.to_nat (argc - 1) <=? fuel)%nat
    then Done (0, spec_stdout v (calc 10 20)
                    (firstn (Z.to_nat (argc - 1)) (params argv)))
    else OutOfFuel.
Proof.
  intros Hlen Hmax. unfold run, main.
  destruct (Z.gtb_spec argc 1) as [Hgt | Hle].
  - destruct argv as [| p ps]; [simpl in Hlen; lia |].
    cbn [params tl].
    set (k := Z.to_nat (argc - 1)).
    assert (Hk : (k <= List.length ps)%nat)
      by (unfold k; cbn [List.length] in Hlen; lia).
    assert (Hrest : List.length (firstn k ps) = k)
      by (apply firstn_length_le; exact Hk).
    assert (Hargc : argc = Z.of_nat (List.length ([p] ++ firstn k ps))).
    { cbn [app List.length]. rewrite Hrest. unfold k. lia. }
    pose proof (for_loop_within (firstn k ps) [p] (skipn k ps) fuel
                  [banner_line; version_line v; header_line]) as Hloop.
    rewrite <- Hargc, firstn_skipn, Hrest in Hloop.
    specialize (Hloop Hmax).
    unfold bind at 1. rewrite printf_banner.
    unfold bind at 1. rewrite printf_version.
    unfold bind at 1. unfold bind at 1. rewrite printf_header.
    change ((([] ++ [banner_line]) ++ [version_line v]) ++ [header_line])%list
      with [banner_line; version_line v; header_line].
    change (p :: ps) with ([p] ++ ps)%list.
    change 1 with (Z.of_nat (List.length [p])) at 1.
    rewrite Hloop.
    destruct (k <=? fuel)%nat; [| reflexivity].
    unfold bind. rewrite printf_sum.
    unfold spec_stdout, arguments_section.
    destruct (firstn k ps) as [| a rest] eqn:Efirst;
      [simpl in Hrest; unfold k in Hrest; lia |].
    reflexivity.
  - replace (Z.to_nat (argc - 1)) with 0%nat by lia.
    reflexivity.
Qed.

Lemma main_argc_within_vector_witness :
  run "1.0.0" Z.add 1 2 ["prog"; "foo"; "bar baz"]
  = Done (0, spec_stdout "1.0.0" 30 ["foo"]).
Proof.
  apply (main_argc_within_vector "1.0.0" Z.add 1 2 ["prog"; "foo"; "bar baz"]).
  - simpl. lia.
  - unfold INT_MAX. lia.
Defined.



(** ** Reading the inputs back from the text *)

Lemma append_inv_head (s t t' : string) : s ++ t = s ++ t' -> t = t'.
Proof.
  induction s as [| c s IH]; simpl; intros H; [exact H |].
  injection H as H. exact (IH H).
Qed.

Lemma arg_texts_inj (ps ps' : list string) :
  forall i : Z, arg_texts i ps = arg_texts i ps' -> ps = ps'.
Proof.
  revert ps'.
  induction ps as [| p ps IH]; intros [| p' ps'] i H;
    try discriminate; [reflexivity |].
  cbn [arg_texts] in H. injection H as Hhead Htail.
  apply append_inv_head in Hhead. injection Hhead as ->.
  f_equal. exact (IH _ _ Htail).
Qed.

Lemma spec_text_lines_inj (v v' : string) (r r' : Z) (ps ps' : list string) :
  spec_text_lines v r ps = spec_text_lines v' r' ps' ->
  v = v' /\ ps = ps' /\ r = r'.
Proof.
  unfold spec_text_lines. cbn [app]. intros H.
  injection H as Hv Hrest.
  apply app_inj_tail in Hrest as [Hsection Hsum].
  injection Hsum as Hsum. apply fmt_d_inj in Hsum.
  split; [exact Hv | split; [| exact Hsum]].
  destruct ps as [| p ps], ps' as [| p' ps']; try discriminate;
    [reflexivity |].
  apply (f_equal (@tl string)) in Hsection. cbn [tl] in Hsection.
  exact (arg_texts_inj _ _ 1 Hsection).
Qed.

(** X2. The echo loses nothing.  When no version string and no
    parameter contains a line feed, two runs that write the same text
    had the same version string, the same parameters and the same
    value of [calculate(10, 20)]. *)
Theorem inputs_read_back_from_text
    (v1 v2 : string) (calc1 calc2 : Z -> Z -> Z)
    (fuel1 fuel2 : nat) (argc1 argc2 : Z) (argv1 argv2 : list string)
    (rc1 rc2 : Z) (out1 out2 : stdout) :
  wf_invocation argc1 argv1 ->
  wf_invocation argc2 argv2 ->
  no_lf v1 = true ->
  no_lf v2 = true ->
  forallb no_lf (params argv1) = true ->
  forallb no_lf (params argv2) = true ->
  run v1 calc1 fuel1 argc1 argv1 = Done (rc1, out1) ->
  run v2 calc2 fuel2 argc2 argv2 = Done (rc2, out2) ->
  stdout_text out1 = stdout_text out2 ->
  v1 = v2 /\ params argv1 = params argv2 /\ calc1 10 20 = calc2 10 20.
Proof.
  intros Hwf1 Hwf2 Hv1 Hv2 Hps1 Hps2 Hrun1 Hrun2 Htext.
  assert (Hout : forall v calc fuel argc argv rc out,
             wf_invocation argc argv ->
             run v calc fuel argc argv = Done (rc, out) ->
             out = spec_stdout v (calc 10 20) (params argv)).
  { intros v calc fuel argc argv rc out Hwf Hrun.
    destruct (le_lt_dec (List.length (params argv)) fuel) as [Hfuel | Hfuel].
    - rewrite (run_done v calc fuel argc argv Hwf Hfuel) in Hrun.
      now injection Hrun as _ <-.
    - rewrite (run_out_of_fuel v calc fuel argc argv Hwf Hfuel) in Hrun.
      discriminate Hrun. }
  apply Hout in Hrun1, Hrun2; try assumption. subst out1 out2.
  apply (f_equal text_lines) in Htext.
  rewrite !spec_stdout_text_lines in Htext by assumption.
  exact (spec_text_lines_inj _ _ _ _ _ _ Htext).
Qed.

Lemma inputs_read_back_from_text_witness :
  "1.0.0" = "1.0.0"
  /\ params ["prog"; "hello"] = params ["./demo"; "hello"]
  /\ 10 + 20 = 3 * 10.
Proof.
  apply (inputs_read_back_from_text "1.0.0" "1.0.0"
           Z.add (fun a b : Z => 3 * a) 1 5 2 2
           ["prog"; "hello"] ["./demo"; "hello"] 0 0
           (spec_stdout "1.0.0" 30 ["hello"])
           (spec_stdout "1.0.0" 30 ["hello"]));
    try reflexivity; wf_concrete.
Defined.

(** With a line feed in a parameter the text no longer tells the
    parameters: one parameter holding a line feed and the text of an
    argument line is written like two parameters. *)
Example text_of_two_invocations :
  exists out1 out2 : stdout,
    run "1.0.0" Z.add 1 2 ["prog"; "a" ++ nl ++ "  [2]: b"] = Done (0, out1)
    /\ run "1.0.0" Z.add 2 3 ["prog"; "a"; "b"] = Done (0, out2)
    /\ stdout_text out1 = stdout_text out2.
Proof.
  do 2 eexists.
  split; [vm_compute; reflexivity | split; [vm_compute; reflexivity |]].
  reflexivity.
Qed.

(** ** One more parameter *)

Lemma arg_lines_app (ps qs : list string) :
  forall i : Z,
    arg_lines i (ps ++ qs)
    = (arg_lines i ps ++ arg_lines (i + Z.of_nat (List.length ps)) qs)%list.
Proof.
  induction ps as [| p ps IH]; intros i.
  - cbn [app arg_lines List.length]. now rewrite Z.add_0_r.
  - cbn [app arg_lines List.length]. rewrite IH.
    do 3 f_equal. lia.
Qed.

(** X5. One more parameter.  Passing one more parameter [q] after the
    N already there leaves every line but the last where it was and
    puts the line of [q], numbered N + 1, just before the sum line,
    preceded by the header when [q] is the first parameter. *)
Theorem one_more_parameter
    (v : string) (calc : Z -> Z -> Z)
    (fuel : nat) (argc : Z) (argv : list string) (q : string) :
  wf_invocation argc argv ->
  argv <> [] ->
  argc < INT_MAX ->
  (List.length (params argv) + 1 <= fuel)%nat ->
  exists front : list string,
    run v calc fuel argc argv
    = Done (0, (front ++ [sum_line (calc 10 20)])%list)
    /\ run v calc fuel (argc + 1) (argv ++ [q])
       = Done (0, (front
                     ++ match params argv with
                        | [] => [header_line]
                        | _ :: _ => []
                        end
                     ++ [arg_line (Z.of_nat (List.length (params argv)) + 1) q;
                         sum_line (calc 10 20)])%list).
Proof.
  intros Hwf Hne Hmax Hfuel.
  assert (Hwf' : wf_invocation (argc + 1) (argv ++ [q])).
  { destruct Hwf as [-> _]. split; [| lia].
    rewrite length_app. simpl. lia. }
  assert (Hps : params (argv ++ [q]) = (params argv ++ [q])%list)
    by (destruct argv; [contradiction | reflexivity]).
  exists ([banner_line; version_line v] ++ arguments_section (params argv))%list.
  rewrite (run_done v calc fuel argc argv Hwf) by lia.
  rewrite (run_done v calc fuel (argc + 1) (argv ++ [q]) Hwf')
    by (rewrite Hps, length_app; simpl; lia).
  rewrite Hps. unfold spec_stdout.
  split; [now rewrite <- app_assoc |].
  do 2 f_equal.
  destruct (params argv) as [| p ps]; [reflexivity |].
  unfold arguments_section. cbv iota.
  change (p :: ps ++ [q])%list with ((p :: ps) ++ [q])%list.
  rewrite arg_lines_app, (Z.add_comm 1).
  cbn [arg_lines app]. rewrite <- app_assoc. reflexivity.
Qed.

Lemma one_more_parameter_witness :
  exists front : list string,
    run "1.0.0" Z.add 2 2 ["prog"; "foo"]
    = Done (0, (front ++ [sum_line (10 + 20)])%list)
    /\ run "1.0.0" Z.add 2 3 ["prog"; "foo"; "bar baz"]
       = Done (0, (front ++ [arg_line 2 "bar baz"; sum_line (10 + 20)])%list).
Proof.
  apply (one_more_parameter "1.0.0" Z.add 2 2 ["prog"; "foo"] "bar baz").
  - wf_concrete.
  - discriminate.
  - unfold INT_MAX. lia.
  - simpl. lia.
Defined.

(** ** The first and the last line of the text *)

Lemma text_lines_nil (s : string) : text_lines s = [] -> s = "".
Proof.
  destruct s as [| c s]; [reflexivity |]. cbn [text_lines].
  destruct (Ascii.eqb c LF); [discriminate |].
  destruct (text_lines s); discriminate.
Qed.

(** Cutting a text after one of its line feeds cuts between two of
    its lines. *)
Lemma text_lines_app (s t : string) :
  text_lines ((s ++ nl) ++ t) = (text_lines (s ++ nl) ++ text_lines t)%list.
Proof.
  induction s as [| c s IH]; [reflexivity |].
  cbn [append text_lines]. rewrite IH.
  destruct (Ascii.eqb c LF); [reflexivity |].
  destruct (text_lines (s ++ nl)) as [| l ls] eqn:Elines; [| reflexivity].
  apply text_lines_nil in Elines. destruct s; discriminate Elines.
Qed.

Lemma text_lines_one (l : string) :
  no_lf l = true -> text_lines (l ++ nl) = [l].
Proof.
  intros Hl.
  replace (l ++ nl) with ((l ++ nl) ++ "")
    by (induction (l ++ nl) as [| c s IH]; simpl; [| rewrite IH]; reflexivity).
  now rewrite text_lines_line.
Qed.

Lemma stdout_text_app (ws : list string) (w : string) :
  stdout_text (ws ++ [w])%list = stdout_text ws ++ w.
Proof.
  unfold stdout_text.
  induction ws as [| w' ws IH]; [reflexivity |].
  change ((w' :: ws) ++ [w])%list with (w' :: (ws ++ [w]))%list.
  now rewrite !concat_cons, IH, append_assoc.
Qed.

(** The text of terminated lines, when there is one at least, ends
    with a line feed. *)
Lemma stdout_text_terminated (l : string) (ls : list string) :
  exists s : string,
    stdout_text (map (fun l => l ++ nl) (l :: ls)) = s ++ nl.
Proof.
  revert l. unfold stdout_text.
  induction ls as [| l' ls IH]; intros l.
  - exists l. cbn [map]. now rewrite concat_cons, <- append_assoc.
  - destruct (IH l') as [s Hs].
    exists (l ++ nl ++ s).
    change (map (fun l0 => l0 ++ nl) (l :: l' :: ls))
      with ((l ++ nl) :: map (fun l0 => l0 ++ nl) (l' :: ls)).
    now rewrite concat_cons, Hs, <- !append_assoc.
Qed.

(** X6. Whatever the version string and the parameters contain, line
    feeds included, the first line of the text written is the banner
    and its last line is the sum line. *)
Theorem first_and_last_text_line
    (v : string) (calc : Z -> Z -> Z)
    (fuel : nat) (argc : Z) (argv : list string) :
  wf_invocation argc argv ->
  (List.length (params argv) <= fuel)%nat ->
  exists out : stdout,
    run v calc fuel argc argv = Done (0, out)
    /\ hd "" (text_lines (stdout_text out)) = "zbuild Example Project"
    /\ last (text_lines (stdout_text out)) ""
       = "10 + 20 = " ++ fmt_d (calc 10 20).
Proof.
  intros Hwf Hfuel.
  eexists. split; [apply (run_done v calc fuel argc argv Hwf Hfuel) |].
  split.
  - unfold spec_stdout. cbn [app].
    unfold stdout_text. rewrite concat_cons.
    unfold banner_line. now rewrite text_lines_line.
  - unfold spec_stdout. rewrite app_assoc, stdout_text_app.
    pose proof (spec_stdout_texts v (calc 10 20) (params argv)) as Htexts.
    unfold spec_stdout, spec_text_lines in Htexts.
    rewrite !app_assoc, map_app in Htexts.
    apply app_inj_tail in Htexts as [Hfront _].
    rewrite Hfront. cbn [app].
    destruct (stdout_text_terminated "zbuild Example Project"
                (("Version: " ++ v)
                   :: match params argv with
                      | [] => []
                      | _ :: _ => "Arguments:" :: arg_texts 1 (params argv)
                      end)) as [s Hs].
    rewrite Hs. unfold sum_line.
    assert (Hsum : no_lf ("10 + 20 = " ++ fmt_d (calc 10 20)) = true)
      by (rewrite no_lf_app, no_lf_fmt_d; reflexivity).
    rewrite text_lines_app.
    rewrite (append_assoc "10 + 20 = " (fmt_d (calc 10 20)) nl).
    rewrite (text_lines_one _ Hsum).
    apply last_last.
Qed.

Lemma first_and_last_text_line_witness :
  exists out : stdout,
    run "1.0" Z.add 1 2 ["prog"; "a" ++ nl ++ "b"] = Done (0, out)
    /\ hd "" (text_lines (stdout_text out)) = "zbuild Example Project"
    /\ last (text_lines (stdout_text out)) "" = "10 + 20 = " ++ fmt_d (10 + 20).
Proof.
  apply (first_and_last_text_line "1.0" Z.add 1 2 ["prog"; "a" ++ nl ++ "b"]).
  - wf_concrete.
  - simpl. lia.
Defined.
